(** * GDT-Packer self-update mechanism: a shallow embedding

    The development follows the two Python programs of the repository:

    - [GDTPacker.py]: the main application's updater helpers
      ([get_version_data], [get_updater_path], [check_for_updates],
      [download_update], [run_update], [auto_update]);
    - [updater.py]: the companion process ([log], [main]).

    Python values are modelled by an inductive type, Python strings by
    lists of code points, and the effects of the code (printing, the
    filesystem, HTTP requests, spawning processes, [sys.exit], raised
    exceptions) by a state-and-exception monad over an explicit [world].
    Everything the environment decides (what the network answers, which
    file operation fails, what the user clicks) is read from an [Env]
    record of oracles, so that every theorem quantifies over all of it.

    What the model takes for granted:
    - [print] appends to an in-memory standard output and cannot fail;
    - [os.path.join], [os.path.dirname], [json.loads], [int], the
      formatting of floats and the text encoding of files are library
      code, taken as parameters in [Env];
    - a file object is identified with its path, writes reach the file at
      once, and closing a file has no effect of its own;
    - [os.makedirs] records the directory it was asked for;
    - [requests.get] on a string always counts as a request, also when
      the library would reject the URL before sending anything. *)

From Stdlib Require Import ZArith NArith String Ascii List DecimalString.
From Stdlib.Strings Require Import Byte.
From Stdlib Require Import Floats.SpecFloat.
From stdpp Require Import gmap list.

Local Open Scope Z_scope.

(* ===================================================================== *)
(** * The Python runtime the two programs rely on                        *)
(* ===================================================================== *)

Module Py.

(** ** Strings *)

(** A Python [str] is a sequence of Unicode code points. *)
Abbreviation pystr := (list N).

(** A literal of the source text. *)
Definition lit (s : string) : pystr :=
  map N_of_ascii (list_ascii_of_string s).
Arguments lit s%_string : simpl never.

(** The characters written [\n] and [\r] in the source. *)
Definition nl : pystr := [10%N].
Definition cr : pystr := [13%N].

(** [str.isspace] for one character: CPython's [_PyUnicode_IsWhitespace]. *)
Definition isspace (c : N) : bool :=
  ((9 <=? c) && (c <=? 13) || (28 <=? c) && (c <=? 32)
   || (c =? 133) || (c =? 160) || (c =? 5760)
   || (8192 <=? c) && (c <=? 8202)
   || (c =? 8232) || (c =? 8233) || (c =? 8239) || (c =? 8287)
   || (c =? 12288))%N.

Fixpoint lstrip (s : pystr) : pystr :=
  match s with
  | c :: s' => if isspace c then lstrip s' else s
  | [] => []
  end.

Definition rstrip (s : pystr) : pystr := rev (lstrip (rev s)).

(** [s.strip()] with no argument. *)
Definition strip (s : pystr) : pystr := rstrip (lstrip s).

Definition str_eqb (a b : pystr) : bool := bool_decide (a = b).

(** [str(n)] for an [int]. *)
Definition str_int (z : Z) : pystr := lit (NilZero.string_of_int (Z.to_int z)).

(** ** Values *)

(** The values [json.loads] can produce, which is all the code handles
    besides paths. A [dict] keeps its items in order; keys are unique in a
    real dict, and [dict_get] reads the first binding. *)
#[warnings="-register-all"]
Inductive pyval : Type :=
| PNone
| PBool (b : bool)
| PInt (z : Z)
| PFloat (f : spec_float)
| PStr (s : pystr)
| PList (l : list pyval)
| PDict (d : list (pystr * pyval)).

(** Truth value testing, as done by [if v:] and [v and ...]. *)
Definition truthy (v : pyval) : bool :=
  match v with
  | PNone => false
  | PBool b => b
  | PInt z => negb (z =? 0)
  | PFloat (S754_zero _) => false
  | PFloat _ => true
  | PStr s => negb (str_eqb s [])
  | PList l => match l with [] => false | _ => true end
  | PDict d => match d with [] => false | _ => true end
  end.

Definition type_name (v : pyval) : pystr :=
  match v with
  | PNone => lit "NoneType"
  | PBool _ => lit "bool"
  | PInt _ => lit "int"
  | PFloat _ => lit "float"
  | PStr _ => lit "str"
  | PList _ => lit "list"
  | PDict _ => lit "dict"
  end.

Fixpoint dict_get (d : list (pystr * pyval)) (k : pystr) : pyval :=
  match d with
  | [] => PNone
  | (k', v) :: d' => if str_eqb k' k then v else dict_get d' k
  end.

(** ** Exceptions and outcomes *)

(** An instance of a subclass of [Exception]; [exn_msg] is [str(e)]. *)
Record exn : Type := Exn { exn_class : pystr; exn_msg : pystr }.

Definition AttributeError (v : pyval) (attr : string) : exn :=
  Exn (lit "AttributeError")
      (lit "'" ++ type_name v ++ lit "' object has no attribute '"
           ++ lit attr ++ lit "'").

(** How a call ends: it returns, it raises an [Exception], or it raises
    [SystemExit] (from [sys.exit]), which is a [BaseException] and hence
    not caught by [except Exception]. *)
Inductive outcome (A : Type) : Type :=
| Ret (a : A)
| Raise (e : exn)
| SysExit (code : Z).
Arguments Ret {A} a.
Arguments Raise {A} e.
Arguments SysExit {A} code.

(** ** The world *)

(** An HTTP response as the code reads it. [chunks] is what
    [iter_content] yields; when [dropped] is [Some e] the iteration raises
    [e] after the last of them (the connection broke mid-stream). *)
Record response : Type := Response {
  status_code : Z;
  text : pystr;
  content_length : option pystr;
  chunks : list (list byte);
  dropped : option exn
}.

Record world : Type := World {
  files : gmap (list N) (list byte);  (* regular files and their contents *)
  dirs : gset (list N);               (* directories *)
  stdout : list (list N);             (* what [print] wrote, call by call *)
  procs : list (list (list N));       (* argument vectors given to Popen *)
  reqs : list (list N);               (* URLs of the GET requests issued *)
  asked : list (list N);              (* texts of the question dialogs shown *)
  slept : Z;                          (* seconds spent in [time.sleep] *)
  clock : nat                         (* interactions with the environment *)
}.

(** What the code does not decide. The oracles are indexed by [clock], so
    that the same call can be answered differently at different times. *)
Record Env : Type := {
  APPDATA : option pystr;             (* os.environ.get("APPDATA") *)
  sys_executable : pystr;
  sys_argv : list pystr;
  gettempdir : pystr;                 (* tempfile.gettempdir() *)
  path_join : pystr -> pystr -> pystr;    (* os.path.join *)
  path_dirname : pystr -> pystr;          (* os.path.dirname *)
  json_loads : pystr -> exn + pyval;
  py_int : pystr -> exn + Z;              (* int(s) *)
  fmt_value : pyval -> pystr;             (* str() of floats and containers *)
  fmt_repr : pyval -> pystr;              (* repr() *)
  fmt_percent : Z -> Z -> pystr;          (* f"{(d / t) * 100:.1f}" *)
  encode_text : pystr -> exn + list byte; (* text-mode encoding, utf-8 *)
  http : nat -> pystr -> exn + response;  (* answer to a GET issued now *)
  io_fault : nat -> option exn;           (* does the OS call made now fail *)
  now_iso : nat -> pystr;                 (* datetime.now().isoformat() *)
  reply_yes : nat -> bool                 (* the user's answer to a dialog *)
}.

Definition set_files (f : gmap (list N) (list byte)) (w : world) : world :=
  World f (dirs w) (stdout w) (procs w) (reqs w) (asked w) (slept w) (clock w).
Definition set_dirs (d : gset (list N)) (w : world) : world :=
  World (files w) d (stdout w) (procs w) (reqs w) (asked w) (slept w) (clock w).
Definition set_stdout (o : list (list N)) (w : world) : world :=
  World (files w) (dirs w) o (procs w) (reqs w) (asked w) (slept w) (clock w).
Definition set_procs (p : list (list (list N))) (w : world) : world :=
  World (files w) (dirs w) (stdout w) p (reqs w) (asked w) (slept w) (clock w).
Definition set_reqs (r : list (list N)) (w : world) : world :=
  World (files w) (dirs w) (stdout w) (procs w) r (asked w) (slept w) (clock w).
Definition set_asked (a : list (list N)) (w : world) : world :=
  World (files w) (dirs w) (stdout w) (procs w) (reqs w) a (slept w) (clock w).
Definition set_slept (s : Z) (w : world) : world :=
  World (files w) (dirs w) (stdout w) (procs w) (reqs w) (asked w) s (clock w).
Definition tick (w : world) : world :=
  World (files w) (dirs w) (stdout w) (procs w) (reqs w) (asked w) (slept w)
        (S (clock w)).

(** ** The monad of effectful Python code *)

Definition M (A : Type) : Type := world -> outcome A * world.

Definition ret {A} (a : A) : M A := fun w => (Ret a, w).
Definition raise {A} (e : exn) : M A := fun w => (Raise e, w).
Definition sys_exit {A} (code : Z) : M A := fun w => (SysExit code, w).

Definition bind {A B} (m : M A) (k : A -> M B) : M B :=
  fun w =>
    match m w with
    | (Ret a, w') => k a w'
    | (Raise e, w') => (Raise e, w')
    | (SysExit c, w') => (SysExit c, w')
    end.

(** [try: body except Exception as e: handler e]. *)
Definition try_except {A} (body : M A) (handler : exn -> M A) : M A :=
  fun w =>
    match body w with
    | (Raise e, w') => handler e w'
    | r => r
    end.

Declare Scope py_scope.
Delimit Scope py_scope with py.
Notation "'let!' x ':=' m 'in' k" := (bind m (fun x => k))
  (at level 10, x pattern, m at level 100, k at level 200) : py_scope.
Notation "m ;; k" := (bind m (fun _ => k))
  (at level 100, k at level 200, right associativity) : py_scope.
Notation "'try' b 'except' e => h" := (try_except b (fun e => h))
  (at level 10, b at level 200, e name, h at level 200) : py_scope.

Local Open Scope py_scope.

Section Runtime.
Variable env : Env.

(** [str(v)], as an f-string placeholder formats a value. *)
Definition py_str (v : pyval) : pystr :=
  match v with
  | PStr s => s
  | PNone => lit "None"
  | PBool true => lit "True"
  | PBool false => lit "False"
  | PInt z => str_int z
  | _ => fmt_value env v
  end.

(** [print(s, end=e)]. *)
Definition print_end (s e : pystr) : M unit :=
  fun w => (Ret tt, set_stdout (stdout w ++ [s ++ e]) w).

Definition print (s : pystr) : M unit := print_end s nl.

(** [v.get(key)]: only a [dict] has the method. *)
Definition py_get (v : pyval) (key : string) : M pyval :=
  match v with
  | PDict d => ret (dict_get d (lit key))
  | _ => raise (AttributeError v "get")
  end.

(** [v.strip()]: only a [str] has the method. *)
Definition py_strip (v : pyval) : M pystr :=
  match v with
  | PStr s => ret (strip s)
  | _ => raise (AttributeError v "strip")
  end.

(** [json.loads(s)]. *)
Definition py_json_loads (s : pystr) : M pyval :=
  match json_loads env s with
  | inl e => raise e
  | inr v => ret v
  end.

(** [int(s)]. *)
Definition py_int_of (s : pystr) : M Z :=
  match py_int env s with
  | inl e => raise e
  | inr z => ret z
  end.

(** [os.path.exists]: never raises. *)
Definition path_exists (p : pystr) (w : world) : bool :=
  bool_decide (p ∈ dirs w) || bool_decide (is_Some (files w !! p)).

Definition os_path_exists (p : pystr) : M bool :=
  fun w => (Ret (path_exists p w), w).

(** A call into the operating system: it fails when the environment
    says so, and otherwise changes the world by [f]. *)
Definition os_call (f : world -> world) : M unit :=
  fun w =>
    match io_fault env (clock w) with
    | Some e => (Raise e, tick w)
    | None => (Ret tt, tick (f w))
    end.

(** [os.makedirs(d)]. *)
Definition os_makedirs (d : pystr) : M unit :=
  os_call (fun w => set_dirs ({[d]} ∪ dirs w) w).

(** [open(path, mode)]: ["w"]/["wb"] create or truncate, ["a"] creates
    when missing. The file object is identified with its path; writes
    are not buffered in the model, and closing has no effect. *)
Inductive open_mode : Type := ModeW | ModeA.

Definition py_open (path : pystr) (mode : open_mode) : M unit :=
  os_call (fun w =>
    match mode with
    | ModeW => set_files (<[path := []]> (files w)) w
    | ModeA => set_files (<[path := default [] (files w !! path)]> (files w)) w
    end).

(** [f.write(data)] on a binary file. *)
Definition f_write (path : pystr) (data : list byte) : M unit :=
  os_call (fun w =>
    set_files (<[path := default [] (files w !! path) ++ data]> (files w)) w).

(** [f.write(s)] on a text file. *)
Definition f_write_text (path : pystr) (s : pystr) : M unit :=
  match encode_text env s with
  | inl e => raise e
  | inr bs => f_write path bs
  end.

(** [with open(path, mode) as f: body]. *)
Definition with_open {A} (path : pystr) (mode : open_mode) (body : M A) : M A :=
  py_open path mode ;; body.

(** [requests.get(url)]. A URL that is not a string fails before any
    request is made ([MissingSchema]). *)
Definition requests_get (url : pyval) : M response :=
  match url with
  | PStr u => fun w =>
      let w' := tick (set_reqs (reqs w ++ [u]) w) in
      match http env (clock w) u with
      | inl e => (Raise e, w')
      | inr r => (Ret r, w')
      end
  | _ => raise (Exn (lit "MissingSchema")
                    (lit "Invalid URL '" ++ py_str url ++ lit "'"))
  end.

(** The end of [for chunk in r.iter_content(..)]. *)
Definition iter_content_end (r : response) : M unit :=
  match dropped r with
  | Some e => raise e
  | None => ret tt
  end.

(** [subprocess.Popen(args)]: every argument must be a string
    ([TypeError] otherwise); the call does not wait for the child. *)
Fixpoint str_args (args : list pyval) : option (list pystr) :=
  match args with
  | [] => Some []
  | PStr s :: args' => cons s <$> str_args args'
  | _ => None
  end.

Definition Popen (args : list pyval) : M unit :=
  match str_args args with
  | Some argv => os_call (fun w => set_procs (procs w ++ [argv]) w)
  | None => raise (Exn (lit "TypeError") (lit "expected str, bytes or os.PathLike object"))
  end.

(** [time.sleep(s)]. *)
Definition time_sleep (s : Z) : M unit :=
  fun w => (Ret tt, set_slept (slept w + s) w).

(** [datetime.datetime.now().isoformat()]. *)
Definition datetime_now_iso : M pystr :=
  fun w => (Ret (now_iso env (clock w)), tick w).

(** [QMessageBox.question(..) == QMessageBox.Yes]. *)
Definition question_yes (message : pystr) : M bool :=
  fun w => (Ret (reply_yes env (clock w)), tick (set_asked (asked w ++ [message]) w)).

End Runtime.

End Py.

(* ===================================================================== *)
(** * GDTPacker.py: the updater helper functions                         *)
(* ===================================================================== *)

Module GDTPacker.
Import Py.
Local Open Scope py_scope.

Definition VERSIONNUM : pystr := lit "1.2.2".

(** The [url] local of [get_version_data] and [check_for_updates]. *)
Definition updates_url : pystr :=
  lit "https://raw.githubusercontent.com/Owen-C137/ToolsMain/main/updates.json".

Section Helpers.
Variable env : Env.

Definition get_version_data : M pyval :=
  try (
    let url := updates_url in
    print (lit "Loading version data from: " ++ url) ;;
    let! response := requests_get env (PStr url) in
    if status_code response =? 200 then
      let! version_data := py_json_loads env (text response) in
      print (lit "Version data loaded successfully.") ;;
      ret version_data
    else
      print (lit "Failed to load version data, status code: "
               ++ str_int (status_code response)) ;;
      ret (PDict [])
  ) except e => (
    print (lit "Failed to load version data: " ++ exn_msg e) ;;
    ret (PDict [])
  ).

Definition updater_dir : pystr :=
  path_join env (default [] (APPDATA env)) (lit "ToolsMainUpdater").

Definition updater_path : pystr :=
  path_join env updater_dir (lit "updater.exe").

(** [for chunk in r.iter_content(1024): if chunk: f.write(chunk)],
    up to the point where the iterator is exhausted. *)
Fixpoint write_chunks (path : pystr) (cs : list (list byte)) : M unit :=
  match cs with
  | [] => ret tt
  | chunk :: cs' =>
      (match chunk with
       | [] => ret tt
       | _ => f_write env path chunk
       end) ;;
      write_chunks path cs'
  end.

Definition get_updater_path (version_data : pyval) : M pystr :=
  let! dir_exists := os_path_exists updater_dir in
  (if negb dir_exists then
     os_makedirs env updater_dir ;;
     print (lit "Created updater directory: " ++ updater_dir)
   else ret tt) ;;
  let! updater_download_url := py_get version_data "updater_download_url" in
  (if truthy updater_download_url then
     let! file_exists := os_path_exists updater_path in
     if negb file_exists then
       print (lit "Updater not found locally. Downloading updater from: "
                ++ py_str env updater_download_url) ;;
       try (
         let! r := requests_get env updater_download_url in
         if status_code r =? 200 then
           with_open env updater_path ModeW (
             write_chunks updater_path (chunks r) ;;
             iter_content_end r) ;;
           print (lit "Updater downloaded successfully.") ;;
           print (lit "Updater saved to: " ++ updater_path)
         else
           print (lit "Failed to download updater, status code: "
                    ++ str_int (status_code r))
       ) except e => (
         print (lit "Error downloading updater: " ++ exn_msg e)
       )
     else
       print (lit "Updater already exists locally at: " ++ updater_path)
   else
     print (lit "No updater_download_url key found in version data.")) ;;
  ret updater_path.

Definition check_for_updates : M (pyval * pyval) :=
  try (
    let url := updates_url in
    print (lit "Checking for updates...") ;;
    let! response := requests_get env (PStr url) in
    if status_code response =? 200 then
      let! data := py_json_loads env (text response) in
      let! remote_version := py_get data "version" in
      let! download_url := py_get data "download_url" in
      print (lit "Remote version: " ++ py_str env remote_version
               ++ lit " (Current: " ++ VERSIONNUM ++ lit ")") ;;
      let! differs :=
        (if truthy remote_version then
           let! stripped := py_strip remote_version in
           ret (negb (str_eqb stripped (strip VERSIONNUM)))
         else ret false) in
      if differs then ret (remote_version, download_url)
      else ret (PNone, PNone)
    else
      print (lit "Failed to check for update, status code: "
               ++ str_int (status_code response)) ;;
      ret (PNone, PNone)
  ) except e => (
    print (lit "Update check failed: " ++ exn_msg e) ;;
    ret (PNone, PNone)
  ).

Definition new_exe_path : pystr :=
  path_join env (gettempdir env) (lit "new_version.exe").

(** The loop of [download_update], with its [downloaded] counter. *)
Fixpoint download_chunks (total_length : Z) (cs : list (list byte))
         (downloaded : Z) : M Z :=
  match cs with
  | [] => ret downloaded
  | chunk :: cs' =>
      match chunk with
      | [] => download_chunks total_length cs' downloaded
      | _ =>
          f_write env new_exe_path chunk ;;
          let downloaded := downloaded + Z.of_nat (length chunk) in
          (if negb (total_length =? 0) then
             print_end (lit "Downloading update... "
                          ++ fmt_percent env downloaded total_length
                          ++ lit "% complete") cr
           else ret tt) ;;
          download_chunks total_length cs' downloaded
      end
  end.

Definition download_update (download_url : pyval) : M pyval :=
  try (
    print (lit "Starting download of update...") ;;
    let! response := requests_get env download_url in
    if status_code response =? 200 then
      let! total_length :=
        (match content_length response with
         | Some s => py_int_of env s
         | None => ret 0
         end) in
      with_open env new_exe_path ModeW (
        download_chunks total_length (chunks response) 0 ;;
        iter_content_end response) ;;
      print (nl ++ lit "Download complete.") ;;
      print (lit "New executable downloaded to: " ++ new_exe_path) ;;
      ret (PStr new_exe_path)
    else
      print (lit "Failed to download update, status code: "
               ++ str_int (status_code response)) ;;
      ret PNone
  ) except e => (
    print (lit "Download failed: " ++ exn_msg e) ;;
    ret PNone
  ).

Definition run_update (new_exe_path : pyval) (updater_exe_path : pystr) : M unit :=
  try (
    print (lit "Launching external updater...") ;;
    print (lit "Updater exe: " ++ updater_exe_path) ;;
    print (lit "Current exe: " ++ sys_executable env) ;;
    print (lit "New exe: " ++ py_str env new_exe_path) ;;
    Popen env [PStr updater_exe_path; PStr (sys_executable env); new_exe_path] ;;
    print (lit "Exiting current version.") ;;
    sys_exit 0
  ) except e => (
    print (lit "Update launch failed: " ++ exn_msg e)
  ).

(** What [auto_update] does once the user has answered Yes
    (the body of [if reply == QMessageBox.Yes:]). *)
Definition auto_update_accepted (download_url : pyval)
           (updater_exe_path : pystr) : M unit :=
  let! new_exe := download_update download_url in
  if truthy new_exe then run_update new_exe updater_exe_path
  else print (lit "Update download failed.").

Definition auto_update : M unit :=
  let! version_data := get_version_data in
  let! updater_exe_path := get_updater_path version_data in
  let! (remote_version, download_url) := check_for_updates in
  if truthy remote_version then
    print (lit "Remote version: " ++ fmt_repr env remote_version) ;;
    print (lit "Current version: " ++ fmt_repr env (PStr VERSIONNUM)) ;;
    let! reply := question_yes env
      (lit "A new version (" ++ py_str env remote_version
         ++ lit ") is available. Update now?") in
    if reply then auto_update_accepted download_url updater_exe_path
    else ret tt
  else ret tt.

End Helpers.

End GDTPacker.

(* ===================================================================== *)
(** * updater.py: the companion process                                  *)
(* ===================================================================== *)

Module Updater.
Import Py.
Local Open Scope py_scope.

(** The double quote character of the batch script. *)
Definition dq : pystr := [34%N].

(** The text the f-string of [main] writes into [update.bat]. *)
Definition replace_script (new_exe current_exe : pystr) : pystr :=
  lit "@echo off" ++ nl
  ++ lit "REM Wait for a few seconds to ensure the old process is completely closed." ++ nl
  ++ lit "ping 127.0.0.1 -n 5 > nul" ++ nl
  ++ lit "REM Copy the new executable over the current one." ++ nl
  ++ lit "copy /Y " ++ dq ++ new_exe ++ dq ++ lit " " ++ dq ++ current_exe ++ dq ++ nl
  ++ lit "IF ERRORLEVEL 1 (" ++ nl
  ++ lit "    echo Update failed during file copy." ++ nl
  ++ lit "    exit /b 1" ++ nl
  ++ lit ")" ++ nl
  ++ lit "REM Launch the updated executable." ++ nl
  ++ lit "start " ++ dq ++ dq ++ lit " " ++ dq ++ current_exe ++ dq ++ nl
  ++ lit "REM Delete this batch file." ++ nl
  ++ lit "del " ++ dq ++ lit "%~f0" ++ dq ++ nl.

Definition usage : pystr :=
  lit "Usage: updater.exe <current_exe_path> <new_exe_path>".

Section Process.
Variable env : Env.

Definition exe_dir : pystr := path_dirname env (sys_executable env).
Definition log_file : pystr := path_join env exe_dir (lit "updater_log.txt").
Definition bat_file : pystr := path_join env exe_dir (lit "update.bat").

Definition log (message : pystr) : M unit :=
  let! timestamp := datetime_now_iso env in
  (try (
     with_open env log_file ModeA (
       f_write_text env log_file (timestamp ++ lit " - " ++ message ++ nl))
   ) except e => (
     print (lit "Failed to write to log file: " ++ exn_msg e)
   )) ;;
  print message.

(** [sys.argv[i]]; [main] only indexes after checking the length. *)
Definition argv (i : nat) : pystr := nth i (sys_argv env) [].

Definition main : M unit :=
  (if (length (sys_argv env) <? 3)%nat then
     log usage ;;
     sys_exit 1
   else ret tt) ;;
  let current_exe := argv 1 in
  let new_exe := argv 2 in
  log (lit "Updater started.") ;;
  log (lit "Current executable: " ++ current_exe) ;;
  log (lit "New executable: " ++ new_exe) ;;
  log (lit "Waiting for the main application to exit...") ;;
  time_sleep 5 ;;
  (try (
     with_open env bat_file ModeW (
       f_write_text env bat_file (replace_script new_exe current_exe)) ;;
     log (lit "Batch file created at: " ++ bat_file)
   ) except e => (
     log (lit "Error writing batch file: " ++ exn_msg e) ;;
     sys_exit 1
   )) ;;
  (try (
     log (lit "Launching updater batch file...") ;;
     Popen env [PStr (lit "cmd"); PStr (lit "/c"); PStr bat_file] ;;
     log (lit "Updater batch file launched successfully. New version should now be starting.")
   ) except e => (
     log (lit "Failed to launch updater batch file: " ++ exn_msg e) ;;
     sys_exit 1
   )) ;;
  log (lit "Updater is exiting.") ;;
  sys_exit 0.

End Process.

End Updater.

(* ===================================================================== *)
(** * Notions used to state the properties                               *)
(* ===================================================================== *)

Module Props.
Import Py.

(** The test [auto_update] applies to what [check_for_updates] returned
    ([if remote_version:]) before it shows the update dialog. *)
Definition update_offered (o : outcome (pyval * pyval)) : bool :=
  match o with
  | Ret (remote_version, _) => truthy remote_version
  | _ => false
  end.

(** A metadata or download fetch that does not yield a 200 response. *)
Definition fetch_fails (a : exn + response) : bool :=
  match a with
  | inl _ => true
  | inr r => negb (status_code r =? 200)
  end.

(** A request for [url] made in [w] ends before any file is opened: the
    URL is no string, the request raises, or the status is not 200. *)
Definition fails_before_open (env : Env) (url : pyval) (w : world) : Prop :=
  match url with
  | PStr u => fetch_fails (http env (clock w) u) = true
  | _ => True
  end.

(** The [content-length] header, when present, is accepted by [int]. *)
Definition length_header_ok (env : Env) (r : response) : Prop :=
  match content_length r with
  | Some s => exists z, py_int env s = inr z
  | None => True
  end.

(** HTTP success in the usual sense (2xx); the code itself accepts 200 only. *)
Definition http_success (status : Z) : bool := (200 <=? status) && (status <? 300).

(** The updater directory is there or can be created now. *)
Definition dir_ready (env : Env) (w : world) : Prop :=
  path_exists (GDTPacker.updater_dir env) w = true \/ io_fault env (clock w) = None.

(** The clock value at which [get_updater_path] sends its request, when
    it sends one: creating the directory takes one OS call. *)
Definition request_clock (env : Env) (w : world) : nat :=
  if path_exists (GDTPacker.updater_dir env) w then clock w else S (clock w).


(** Between [w] and [w'] nothing but the file at [path] changed (the
    standard output and the clock apart). *)
Definition touches_only (path : pystr) (w w' : world) : Prop :=
  procs w' = procs w /\ reqs w' = reqs w /\ dirs w' = dirs w
  /\ asked w' = asked w /\ slept w' = slept w
  /\ forall p : pystr, p <> path -> files w' !! p = files w !! p.

(** The file at [path] is as it was, or holds its old content (nothing,
    when it did not exist) followed by [extra]. *)
Definition appended (path : pystr) (w w' : world) : Prop :=
  files w' !! path = files w !! path
  \/ exists extra, files w' !! path = Some (default [] (files w !! path) ++ extra).

(** As [touches_only], but requests may have been issued. *)
Definition downloads_into (path : pystr) (w w' : world) : Prop :=
  procs w' = procs w /\ dirs w' = dirs w
  /\ asked w' = asked w /\ slept w' = slept w
  /\ forall p : pystr, p <> path -> files w' !! p = files w !! p.

(** The world once [get_updater_path] has passed its directory check
    successfully. *)
Definition after_dir (env : Env) (w : world) : world :=
  if path_exists (GDTPacker.updater_dir env) w then w
  else set_stdout
         (stdout w ++ [(lit "Created updater directory: " ++ GDTPacker.updater_dir env) ++ nl])
         (tick (set_dirs ({[GDTPacker.updater_dir env]} ∪ dirs w) w)).

(** The [try] statement of [get_updater_path], which downloads the
    updater. *)
Definition fetch_updater (env : Env) (updater_download_url : pyval) : M unit :=
  (try (
     let! r := requests_get env updater_download_url in
     if status_code r =? 200 then
       with_open env (GDTPacker.updater_path env) ModeW (
         GDTPacker.write_chunks env (GDTPacker.updater_path env) (chunks r) ;;
         iter_content_end r) ;;
       print (lit "Updater downloaded successfully.") ;;
       print (lit "Updater saved to: " ++ GDTPacker.updater_path env)
     else
       print (lit "Failed to download updater, status code: "
                ++ str_int (status_code r))
   ) except e => (
     print (lit "Error downloading updater: " ++ exn_msg e)
   ))%py.

(** What [get_updater_path] does after its directory check, for the
    value found under ["updater_download_url"]. *)
Definition resolve_updater (env : Env) (updater_download_url : pyval) : M pystr :=
  ((if truthy updater_download_url then
      let! file_exists := os_path_exists (GDTPacker.updater_path env) in
      if negb file_exists then
        print (lit "Updater not found locally. Downloading updater from: "
                 ++ py_str env updater_download_url) ;;
        fetch_updater env updater_download_url
      else
        print (lit "Updater already exists locally at: " ++ GDTPacker.updater_path env)
    else
      print (lit "No updater_download_url key found in version data.")) ;;
   ret (GDTPacker.updater_path env))%py.

(** The statements of [Updater.main] that precede the writing of the
    batch file, for an argument vector that passed the length check. *)
Definition main_before_script (env : Env) : M unit :=
  (Updater.log env (lit "Updater started.") ;;
   Updater.log env (lit "Current executable: " ++ Updater.argv env 1) ;;
   Updater.log env (lit "New executable: " ++ Updater.argv env 2) ;;
   Updater.log env (lit "Waiting for the main application to exit...") ;;
   time_sleep 5)%py.

(** The [with open(bat_file, "w") ...: f.write(...)] statement of [main]. *)
Definition write_script (env : Env) : M unit :=
  with_open env (Updater.bat_file env) ModeW
    (f_write_text env (Updater.bat_file env)
       (Updater.replace_script (Updater.argv env 2) (Updater.argv env 1))).

End Props.

(* ===================================================================== *)
(** * Concrete environments                                              *)
(* ===================================================================== *)

Module Scenario.
Import Py.

Definition sep : pystr := [92%N].

(** A plain path join and dirname, enough for the paths used below. *)
Definition join (a b : pystr) : pystr :=
  match a with
  | [] => b
  | _ => a ++ sep ++ b
  end.

Fixpoint drop_last_component (rev_path : pystr) : pystr :=
  match rev_path with
  | [] => []
  | c :: rest => if (c =? 92)%N then rest else drop_last_component rest
  end.

Definition dirname (p : pystr) : pystr := rev (drop_last_component (rev p)).

Definition quoted (s : string) : pystr := Updater.dq ++ lit s ++ Updater.dq.

Definition app_url : pystr := lit "https://x/app-1.3.0".
Definition upd_url : pystr := lit "https://x/upd".

(** The metadata document of the end-to-end scenario, and its text. *)
Definition meta_items (version : string) : list (pystr * pyval) :=
  [ (lit "version", PStr (lit version));
    (lit "download_url", PStr app_url);
    (lit "updater_download_url", PStr upd_url) ].

Definition meta (version : string) : pyval := PDict (meta_items version).

Definition meta_text (version : string) : pystr :=
  lit "{" ++ quoted "version" ++ lit ": " ++ quoted version ++ lit ", "
  ++ quoted "download_url" ++ lit ": " ++ quoted "https://x/app-1.3.0" ++ lit ", "
  ++ quoted "updater_download_url" ++ lit ": " ++ quoted "https://x/upd" ++ lit "}".

Definition loads (version : string) (s : pystr) : exn + pyval :=
  if str_eqb s (meta_text version) then inr (meta version)
  else inl (Exn (lit "JSONDecodeError") (lit "Expecting value")).

(** Text is encoded one byte per character; anything above 255 fails. *)
Fixpoint encode (s : pystr) : exn + list byte :=
  match s with
  | [] => inr []
  | c :: s' =>
      match Byte.of_N c, encode s' with
      | Some b, inr bs => inr (b :: bs)
      | _, _ => inl (Exn (lit "UnicodeEncodeError") (lit "cannot encode"))
      end
  end.

Definition mk_env (version : string) (argv : list pystr)
           (net : nat -> pystr -> exn + response)
           (fault : nat -> option exn) : Env :=
  {| APPDATA := Some (lit "C:\Users\u\AppData\Roaming");
     sys_executable := lit "C:\Apps\GDTPacker.exe";
     sys_argv := argv;
     gettempdir := lit "C:\Temp";
     path_join := join;
     path_dirname := dirname;
     json_loads := loads version;
     py_int := fun _ => inr 2048;
     fmt_value := fun _ => lit "?";
     fmt_repr := fun v => match v with PStr s => Updater.dq ++ s ++ Updater.dq | _ => lit "?" end;
     fmt_percent := fun d t => str_int (100 * d / t);
     encode_text := encode;
     http := net;
     io_fault := fault;
     now_iso := fun n => lit "2025-01-01T00:00:0" ++ str_int (Z.of_nat n);
     reply_yes := fun _ => true |}.

Definition no_fault : nat -> option exn := fun _ => None.
Definition disk_error : exn := Exn (lit "PermissionError") (lit "[Errno 13] Permission denied").
Definition always_fault : nat -> option exn := fun _ => Some disk_error.

(** Only the OS call made at clock [k] fails. *)
Definition fault_at (k : nat) (e : exn) : nat -> option exn :=
  fun n => if Nat.eqb n k then Some e else None.

Definition connection_reset : exn :=
  Exn (lit "ChunkedEncodingError") (lit "Connection broken").

Definition ok_response (body : pystr) (cs : list (list byte)) : response :=
  Response 200 body None cs None.

Definition not_found : response := Response 404 (lit "Not Found") None [] None.

(** A 200 response whose stream breaks after two chunks. *)
Definition dropped_response : response :=
  Response 200 [] (Some (lit "2048")) [[x4d; x5a]; [x90]] (Some connection_reset).

(** The network of the end-to-end scenario: metadata at the fixed URL,
    the payload and the updater each in one chunk. *)
Definition net_ok (version : string) : nat -> pystr -> exn + response :=
  fun _ u =>
    if str_eqb u GDTPacker.updates_url then inr (ok_response (meta_text version) [])
    else if str_eqb u (lit "https://x/app-1.3.0") then inr (ok_response [] [[x4d; x5a]])
    else if str_eqb u (lit "https://x/upd") then inr (ok_response [] [[x55]])
    else inr not_found.


(** Metadata is served, every download breaks mid-stream. *)
Definition net_dropping (version : string) : nat -> pystr -> exn + response :=
  fun _ u =>
    if str_eqb u GDTPacker.updates_url then inr (ok_response (meta_text version) [])
    else inr dropped_response.

(** No network at all. *)
Definition net_down : nat -> pystr -> exn + response :=
  fun _ _ => inl (Exn (lit "ConnectionError") (lit "Max retries exceeded")).

Definition fresh : world := World ∅ ∅ [] [] [] [] 0 0.

(** A machine on which the application and its updater are installed. *)
Definition installed : world :=
  World {[ lit "C:\Apps\GDTPacker.exe" := [x4d; x5a; x01] ]}
        {[ lit "C:\Apps" ]} [] [] [] [] 0 0.

(** A newer version is announced; the three networks above. *)
Definition env_ok : Env := mk_env "1.3.0" [] (net_ok "1.3.0") no_fault.
Definition env_dropping : Env := mk_env "1.3.0" [] (net_dropping "1.3.0") no_fault.

(** The metadata names the running version, padded with blanks. *)
Definition padded_env : Env := mk_env "  1.2.2 " [] (net_ok "  1.2.2 ") no_fault.



Definition updater_argv : list pystr :=
  [lit "updater.exe"; lit "C:\Apps\GDTPacker.exe"; lit "C:\Temp\new_version.exe"].

(** The updater started with one path only. *)
Definition one_arg_env : Env :=
  mk_env "1.3.0" [lit "updater.exe"; lit "C:\Apps\GDTPacker.exe"] net_down no_fault.

(** The updater started properly, in a directory where [update.bat]
    cannot be created: its four log calls take twelve clock ticks, the
    open of the batch file is the thirteenth interaction. *)
Definition locked_bat_env : Env :=
  mk_env "1.3.0" updater_argv net_down (fault_at 12 disk_error).

End Scenario.

(* ===================================================================== *)
(** * Stepping through monadic code                                      *)
(* ===================================================================== *)

Import Py Props.
Local Open Scope py_scope.

Ltac run_py :=
  cbv beta delta
    [try_except bind ret raise sys_exit print print_end with_open
     py_open f_write_text f_write os_call os_makedirs os_path_exists
     datetime_now_iso time_sleep question_yes iter_content_end
     py_json_loads py_int_of py_get py_strip];
  cbn [fst snd files dirs stdout procs reqs asked slept clock
       set_files set_dirs set_stdout set_procs set_reqs set_asked set_slept tick].

Lemma bind_Ret {A B} (m : M A) (k : A -> M B) w a w' :
  m w = (Ret a, w') -> bind m k w = k a w'.
Proof. intros H. unfold bind. now rewrite H. Qed.

Lemma bind_Raise {A B} (m : M A) (k : A -> M B) w e w' :
  m w = (Raise e, w') -> bind m k w = (Raise e, w').
Proof. intros H. unfold bind. now rewrite H. Qed.

Lemma bind_SysExit {A B} (m : M A) (k : A -> M B) w c w' :
  m w = (SysExit c, w') -> bind m k w = (SysExit c, w').
Proof. intros H. unfold bind. now rewrite H. Qed.


Lemma try_Raise {A} (m : M A) h w e w' :
  m w = (Raise e, w') -> try_except m h w = h e w'.
Proof. intros H. unfold try_except. now rewrite H. Qed.

Lemma try_SysExit {A} (m : M A) h w c w' :
  m w = (SysExit c, w') -> try_except m h w = (SysExit c, w').
Proof. intros H. unfold try_except. now rewrite H. Qed.

Lemma touches_only_refl path w : touches_only path w w.
Proof. unfold touches_only. auto 10. Qed.

Lemma touches_only_trans path w1 w2 w3 :
  touches_only path w1 w2 -> touches_only path w2 w3 -> touches_only path w1 w3.
Proof.
  unfold touches_only.
  intros (Hp & Hr & Hd & Ha & Hs & Hf) (Hp' & Hr' & Hd' & Ha' & Hs' & Hf').
  repeat split; try congruence.
  intros p Hne. rewrite Hf', Hf; auto.
Qed.

(* ===================================================================== *)
(** * The updater process                                                *)
(* ===================================================================== *)

Section UpdaterFacts.
Variable env : Env.

(** The shape of every run of [log]: the three ways the append can go. *)
Lemma log_returns message w :
  exists w', Updater.log env message w = (Ret tt, w')
    /\ last (stdout w') = Some (message ++ nl)
    /\ touches_only (Updater.log_file env) w w'
    /\ appended (Updater.log_file env) w w'.
Proof.
  unfold Updater.log. run_py.
  destruct (io_fault env (S (clock w))) as [e|] eqn:Hopen; run_py.
  - eexists; split; [reflexivity|]. split; [apply last_snoc|].
    unfold touches_only, appended; cbn. auto 10.
  - destruct (encode_text env _) as [e|bs] eqn:Henc; run_py.
    + eexists; split; [reflexivity|]. split; [apply last_snoc|].
      unfold touches_only, appended; cbn.
      repeat split; auto.
      * intros p Hp. by rewrite lookup_insert_ne.
      * right. exists []. by rewrite lookup_insert_eq, app_nil_r.
    + destruct (io_fault env (S (S (clock w)))) as [e|] eqn:Hwr; run_py.
      * eexists; split; [reflexivity|]. split; [apply last_snoc|].
        unfold touches_only, appended; cbn.
        repeat split; auto.
        -- intros p Hp. by rewrite lookup_insert_ne.
        -- right. exists []. by rewrite lookup_insert_eq, app_nil_r.
      * eexists; split; [reflexivity|]. split; [apply last_snoc|].
        unfold touches_only, appended; cbn.
        repeat split; auto.
        -- intros p Hp. by rewrite !lookup_insert_ne.
        -- right. exists bs. by rewrite !lookup_insert_eq.
Qed.

(** When neither the open nor the write fails, the line is in the file. *)
Lemma log_appends message w bs :
  io_fault env (S (clock w)) = None ->
  io_fault env (S (S (clock w))) = None ->
  encode_text env (now_iso env (clock w) ++ lit " - " ++ message ++ nl) = inr bs ->
  files (snd (Updater.log env message w)) !! Updater.log_file env
  = Some (default [] (files w !! Updater.log_file env) ++ bs).
Proof.
  intros Hopen Hwr Henc. unfold Updater.log. run_py.
  rewrite Hopen. run_py. rewrite Henc. run_py. rewrite Hwr. run_py.
  by rewrite !lookup_insert_eq.
Qed.

Lemma main_before_script_returns w :
  exists w0, main_before_script env w = (Ret tt, w0)
    /\ touches_only (Updater.log_file env) w (set_slept (slept w) w0).
Proof.
  unfold main_before_script.
  destruct (log_returns (lit "Updater started.") w) as (w1 & E1 & _ & T1 & _).
  destruct (log_returns (lit "Current executable: " ++ Updater.argv env 1) w1)
    as (w2 & E2 & _ & T2 & _).
  destruct (log_returns (lit "New executable: " ++ Updater.argv env 2) w2)
    as (w3 & E3 & _ & T3 & _).
  destruct (log_returns (lit "Waiting for the main application to exit...") w3)
    as (w4 & E4 & _ & T4 & _).
  rewrite (bind_Ret _ _ _ _ _ E1), (bind_Ret _ _ _ _ _ E2),
    (bind_Ret _ _ _ _ _ E3), (bind_Ret _ _ _ _ _ E4).
  eexists; split; [reflexivity|].
  pose proof (touches_only_trans _ _ _ _ (touches_only_trans _ _ _ _
                (touches_only_trans _ _ _ _ T1 T2) T3) T4) as T.
  unfold touches_only in *; cbn. intuition congruence.
Qed.

(** Writing the script changes the batch file at most, whatever happens. *)
Lemma write_script_frame w :
  touches_only (Updater.bat_file env) w (snd (write_script env w)).
Proof.
  unfold write_script. run_py.
  destruct (io_fault env (clock w)); run_py;
    [unfold touches_only; cbn; auto 10|].
  destruct (encode_text env _); run_py.
  - unfold touches_only; cbn. repeat split; auto.
    intros p Hp. by rewrite lookup_insert_ne.
  - destruct (io_fault env (S (clock w))); run_py.
    + unfold touches_only; cbn. repeat split; auto.
      intros p Hp. by rewrite lookup_insert_ne.
    + unfold touches_only; cbn. repeat split; auto.
      intros p Hp. by rewrite !lookup_insert_ne.
Qed.

End UpdaterFacts.

Lemma log_eq env message w :
  Updater.log env message w = (Ret tt, snd (Updater.log env message w)).
Proof. destruct (log_returns env message w) as (w' & E & _). now rewrite E. Qed.

Lemma bind_log {B} env message (k : unit -> M B) w :
  bind (Updater.log env message) k w = k tt (snd (Updater.log env message w)).
Proof. apply bind_Ret, log_eq. Qed.

Section UpdaterRuns.
Variable env : Env.


Lemma usage_branch w :
  (length (sys_argv env) < 3)%nat ->
  exists w', Updater.main env w = (SysExit 1, w')
    /\ Updater.log env Updater.usage w = (Ret tt, w').
Proof.
  intros Hlen. apply Nat.ltb_lt in Hlen.
  unfold Updater.main. rewrite Hlen.
  exists (snd (Updater.log env Updater.usage w)). split; [|apply log_eq].
  erewrite bind_SysExit; [reflexivity|].
  now rewrite bind_log.
Qed.

(** With both paths given, [main] is the prelude followed by the two
    guarded steps. *)
Lemma main_before_script_eq w :
  main_before_script env w = (Ret tt, snd (main_before_script env w)).
Proof.
  destruct (main_before_script_returns env w) as (w0 & E & _). now rewrite E.
Qed.

Lemma main_with_args w :
  (3 <= length (sys_argv env))%nat ->
  Updater.main env w =
  ((try (write_script env ;;
         Updater.log env (lit "Batch file created at: " ++ Updater.bat_file env))
    except e => (
      Updater.log env (lit "Error writing batch file: " ++ exn_msg e) ;;
      sys_exit 1)) ;;
   (try (Updater.log env (lit "Launching updater batch file...") ;;
         Popen env [PStr (lit "cmd"); PStr (lit "/c"); PStr (Updater.bat_file env)] ;;
         Updater.log env (lit "Updater batch file launched successfully. New version should now be starting."))
    except e => (
      Updater.log env (lit "Failed to launch updater batch file: " ++ exn_msg e) ;;
      sys_exit 1)) ;;
   Updater.log env (lit "Updater is exiting.") ;;
   sys_exit 0) (snd (main_before_script env w)).
Proof.
  intros Hlen. apply Nat.ltb_ge in Hlen.
  unfold Updater.main, main_before_script. rewrite Hlen.
  rewrite (bind_Ret (ret tt) _ w tt w eq_refl).
  rewrite !bind_log. reflexivity.
Qed.

End UpdaterRuns.

Section UpdaterOutcomes.
Variable env : Env.




End UpdaterOutcomes.


(** C2: started with fewer than two path arguments, the updater calls
    [log] with the usage line (so the line is printed, and appended to the
    log file when the append goes through) and ends with exit status 1;
    no process is spawned (nothing that could copy a file is started), the
    batch file is not written, and no file other than the log file is
    touched, the log file itself being appended to at most. *)
Theorem main_usage_exit (env : Env) (w : world) :
  (length (tl (sys_argv env)) < 2)%nat ->
  exists w', Updater.main env w = (SysExit 1, w')
    /\ Updater.log env Updater.usage w = (Ret tt, w')
    /\ last (stdout w') = Some (Updater.usage ++ nl)
    /\ procs w' = procs w
    /\ (Updater.bat_file env <> Updater.log_file env ->
        files w' !! Updater.bat_file env = files w !! Updater.bat_file env)
    /\ touches_only (Updater.log_file env) w w'
    /\ appended (Updater.log_file env) w w'
    /\ (forall bs,
          io_fault env (S (clock w)) = None ->
          io_fault env (S (S (clock w))) = None ->
          encode_text env (now_iso env (clock w) ++ lit " - " ++ Updater.usage ++ nl)
          = inr bs ->
          files w' !! Updater.log_file env
          = Some (default [] (files w !! Updater.log_file env) ++ bs)).
Proof.
  intros Hargs.
  assert (Hlen : (length (sys_argv env) < 3)%nat).
  { destruct (sys_argv env); cbn in *; lia. }
  destruct (usage_branch env w Hlen) as (w' & Emain & Elog).
  destruct (log_returns env Updater.usage w) as (w'' & E & L & T & Ap).
  assert (w'' = w') by congruence. subst w''.
  exists w'. split; [exact Emain|]. split; [exact Elog|].
  split; [exact L|].
  split; [apply T|]. split; [intros Hne; by apply T|].
  split; [exact T|]. split; [exact Ap|].
  intros bs H1 H2 H3.
  pose proof (log_appends env Updater.usage w bs H1 H2 H3) as Hf.
  now rewrite Elog in Hf.
Qed.

(** C8: when writing the replace script raises, the failure is logged
    and the updater ends with exit status 1 without launching anything. *)
Theorem main_script_write_failure (env : Env) (w : world) (e : exn) (w1 : world) :
  (3 <= length (sys_argv env))%nat ->
  write_script env (snd (main_before_script env w)) = (Raise e, w1) ->
  exists w', Updater.main env w = (SysExit 1, w')
    /\ Updater.log env (lit "Error writing batch file: " ++ exn_msg e) w1 = (Ret tt, w')
    /\ last (stdout w') = Some ((lit "Error writing batch file: " ++ exn_msg e) ++ nl)
    /\ procs w' = procs w.
Proof.
  intros Hlen Hw.
  destruct (log_returns env (lit "Error writing batch file: " ++ exn_msg e) w1)
    as (w' & E & L & T & _).
  exists w'. split; [|split; [exact E|split; [exact L|]]].
  - rewrite (main_with_args env w Hlen).
    erewrite bind_SysExit; [reflexivity|].
    erewrite try_Raise by apply (bind_Raise _ _ _ _ _ Hw).
    now rewrite bind_log, E.
  - destruct (main_before_script_returns env w) as (w0 & E0 & T0).
    pose proof (write_script_frame env (snd (main_before_script env w))) as Tw.
    rewrite Hw, E0 in Tw. cbn [snd] in Tw.
    destruct T as (-> & _), Tw as (-> & _), T0 as (T0 & _). exact T0.
Qed.

Lemma main_usage_exit_witness :
  (length (tl (sys_argv Scenario.one_arg_env)) < 2)%nat
  /\ exists w', Updater.main Scenario.one_arg_env Scenario.installed = (SysExit 1, w')
       /\ procs w' = []
       /\ last (stdout w') = Some (Updater.usage ++ nl).
Proof.
  assert (H : (length (tl (sys_argv Scenario.one_arg_env)) < 2)%nat) by (cbn; lia).
  split; [exact H|].
  destruct (main_usage_exit Scenario.one_arg_env Scenario.installed H)
    as (w' & Em & _ & L & Hp & _).
  exists w'. split; [exact Em|]. split; [exact Hp|exact L].
Defined.

Lemma main_script_write_failure_witness :
  (3 <= length (sys_argv Scenario.locked_bat_env))%nat
  /\ fst (write_script Scenario.locked_bat_env
            (snd (main_before_script Scenario.locked_bat_env Scenario.installed)))
     = Raise Scenario.disk_error
  /\ exists w', Updater.main Scenario.locked_bat_env Scenario.installed = (SysExit 1, w')
       /\ procs w' = [].
Proof.
  assert (H1 : (3 <= length (sys_argv Scenario.locked_bat_env))%nat) by (cbn; lia).
  assert (H2 : write_script Scenario.locked_bat_env
                 (snd (main_before_script Scenario.locked_bat_env Scenario.installed))
               = (Raise Scenario.disk_error,
                  snd (write_script Scenario.locked_bat_env
                         (snd (main_before_script Scenario.locked_bat_env
                                 Scenario.installed))))).
  { vm_compute. reflexivity. }
  split; [exact H1|]. split; [now rewrite H2|].
  destruct (main_script_write_failure _ _ _ _ H1 H2) as (w' & Em & _ & _ & Hp).
  exists w'. split; [exact Em|exact Hp].
Defined.

(* ===================================================================== *)
(** * The main application: checking for an update                       *)
(* ===================================================================== *)


Section CheckFacts.
Variable env : Env.

(** [check_for_updates] once the metadata document has been fetched and
    parsed into a dict. *)
Lemma check_for_updates_fetched w resp d :
  http env (clock w) GDTPacker.updates_url = inr resp ->
  status_code resp = 200 ->
  json_loads env (text resp) = inr (PDict d) ->
  fst (GDTPacker.check_for_updates env w)
  = match dict_get d (lit "version") with
    | PStr r =>
        if negb (str_eqb r []) && negb (str_eqb (strip r) (strip GDTPacker.VERSIONNUM))
        then Ret (PStr r, dict_get d (lit "download_url"))
        else Ret (PNone, PNone)
    | _ => Ret (PNone, PNone)
    end.
Proof.
  intros Hh Hs Hj.
  unfold GDTPacker.check_for_updates, requests_get. run_py.
  rewrite Hh, Hs. cbn [Z.eqb Pos.eqb]. run_py. rewrite Hj. run_py.
  destruct (dict_get d (lit "version")) as [ | b | z | f | r | l | d' ];
    cbn [truthy]; run_py; try reflexivity.
  - destruct b; reflexivity.
  - destruct (negb (z =? 0)); reflexivity.
  - destruct f; reflexivity.
  - destruct (negb (str_eqb r [])); run_py; [|reflexivity].
    destruct (negb (str_eqb (strip r) (strip GDTPacker.VERSIONNUM))); reflexivity.
  - destruct l; reflexivity.
  - destruct d'; reflexivity.
Qed.

(** A fetch that fails, in either way, ends both functions quietly. *)
Lemma check_for_updates_fetch_fails w :
  fetch_fails (http env (clock w) GDTPacker.updates_url) = true ->
  exists out,
    GDTPacker.check_for_updates env w
    = (Ret (PNone, PNone),
       set_stdout out (tick (set_reqs (reqs w ++ [GDTPacker.updates_url]) w))).
Proof.
  unfold fetch_fails, GDTPacker.check_for_updates, requests_get. run_py.
  destruct (http env (clock w) GDTPacker.updates_url) as [e|resp]; run_py.
  - intros _. eexists. reflexivity.
  - intros Hs. destruct (status_code resp =? 200); [discriminate|]. run_py.
    eexists. reflexivity.
Qed.

Lemma get_version_data_fetch_fails w :
  fetch_fails (http env (clock w) GDTPacker.updates_url) = true ->
  exists out,
    GDTPacker.get_version_data env w
    = (Ret (PDict []),
       set_stdout out (tick (set_reqs (reqs w ++ [GDTPacker.updates_url]) w))).
Proof.
  unfold fetch_fails, GDTPacker.get_version_data, requests_get. run_py.
  destruct (http env (clock w) GDTPacker.updates_url) as [e|resp]; run_py.
  - intros _. eexists. reflexivity.
  - intros Hs. destruct (status_code resp =? 200); [discriminate|]. run_py.
    eexists. reflexivity.
Qed.

(** [get_version_data] returns a value in every case, and only issues
    its one request. *)
Lemma get_version_data_returns w :
  exists v out,
    GDTPacker.get_version_data env w
    = (Ret v, set_stdout out (tick (set_reqs (reqs w ++ [GDTPacker.updates_url]) w))).
Proof.
  unfold GDTPacker.get_version_data, requests_get. run_py.
  destruct (http env (clock w) GDTPacker.updates_url) as [e|resp]; run_py.
  - eexists _, _. reflexivity.
  - destruct (status_code resp =? 200); run_py.
    + destruct (json_loads env (text resp)); run_py; eexists _, _; reflexivity.
    + eexists _, _. reflexivity.
Qed.

End CheckFacts.



(* ===================================================================== *)
(** * The main application: resolving the updater artifact               *)
(* ===================================================================== *)

Lemma downloads_into_trans path w1 w2 w3 :
  downloads_into path w1 w2 -> downloads_into path w2 w3 -> downloads_into path w1 w3.
Proof.
  unfold downloads_into.
  intros (Hp & Hd & Ha & Hs & Hf) (Hp' & Hd' & Ha' & Hs' & Hf').
  repeat split; try congruence.
  intros p Hne. rewrite Hf', Hf; auto.
Qed.

Lemma touches_only_downloads_into path w w' :
  touches_only path w w' -> downloads_into path w w'.
Proof. unfold touches_only, downloads_into. intuition. Qed.

Section ResolveFacts.
Variable env : Env.

Local Abbreviation updater_path := (GDTPacker.updater_path env).
Local Abbreviation updater_dir := (GDTPacker.updater_dir env).







(** An attempt that fails before the file is opened leaves no file. *)
Lemma fetch_updater_fails_early u w :
  fetch_fails (http env (clock w) u) = true ->
  files (snd (fetch_updater env (PStr u) w)) = files w.
Proof.
  unfold fetch_fails, fetch_updater, requests_get. run_py.
  destruct (http env (clock w) u) as [e|r]; run_py; [reflexivity|].
  destruct (status_code r =? 200); [discriminate|]. reflexivity.
Qed.


End ResolveFacts.

Section ResolveSteps.
Variable env : Env.

Local Abbreviation updater_path := (GDTPacker.updater_path env).
Local Abbreviation updater_dir := (GDTPacker.updater_dir env).




Lemma after_dir_frame w :
  files (after_dir env w) = files w /\ reqs (after_dir env w) = reqs w
  /\ procs (after_dir env w) = procs w /\ asked (after_dir env w) = asked w
  /\ clock (after_dir env w) = request_clock env w.
Proof.
  unfold after_dir, request_clock.
  destruct (path_exists updater_dir w); cbn; auto.
Qed.

(** The directory check, then the rest. *)
Lemma get_updater_path_steps d w :
  dir_ready env w ->
  GDTPacker.get_updater_path env (PDict d) w
  = resolve_updater env (dict_get d (lit "updater_download_url")) (after_dir env w).
Proof.
  intros Hready. unfold GDTPacker.get_updater_path, resolve_updater, after_dir.
  unfold bind at 1. unfold os_path_exists at 1.
  destruct (path_exists updater_dir w) eqn:Hdir; cbn [negb].
  - reflexivity.
  - destruct Hready as [Hex | Hok]; [congruence|].
    unfold bind at 1 2. unfold os_makedirs, os_call. rewrite Hok. reflexivity.
Qed.

(** The one way [get_updater_path] can raise on a dict: the directory is
    missing and cannot be created. *)
Lemma get_updater_path_dir_fails vd w e :
  path_exists updater_dir w = false ->
  io_fault env (clock w) = Some e ->
  GDTPacker.get_updater_path env vd w = (Raise e, tick w).
Proof.
  intros Hdir Hf. unfold GDTPacker.get_updater_path.
  unfold bind at 1. unfold os_path_exists at 1. rewrite Hdir. cbn [negb].
  unfold bind at 1 2. unfold os_makedirs, os_call. rewrite Hf. reflexivity.
Qed.


Lemma resolve_updater_no_url url w :
  truthy url = false ->
  resolve_updater env url w
  = (Ret updater_path,
     set_stdout (stdout w ++ [lit "No updater_download_url key found in version data." ++ nl]) w).
Proof. intros Ht. unfold resolve_updater. rewrite Ht. reflexivity. Qed.







End ResolveSteps.








(* ===================================================================== *)
(** * The main application: downloading the payload                      *)
(* ===================================================================== *)

Section DownloadFacts.
Variable env : Env.

Local Abbreviation new_exe_path := (GDTPacker.new_exe_path env).

Lemma download_chunks_frame total cs : forall downloaded w o w',
  GDTPacker.download_chunks env total cs downloaded w = (o, w') ->
  touches_only new_exe_path w w'
  /\ ((exists n, o = Ret n) \/ exists e, o = Raise e).
Proof.
  induction cs as [|chunk cs IH]; intros downloaded w o w';
    cbn [GDTPacker.download_chunks].
  - run_py. intros [= <- <-]. split; [apply touches_only_refl|]. eauto.
  - destruct chunk as [|b chunk]; [apply IH|].
    unfold bind at 1. unfold f_write, os_call.
    destruct (io_fault env (clock w)) as [e|].
    + intros [= <- <-]. split; [unfold touches_only; cbn; auto 10|]. eauto.
    + unfold bind at 1.
      destruct (negb (total =? 0)); run_py;
        intros Hrun; destruct (IH _ _ _ _ Hrun) as (T & O); (split; [|exact O]);
        (eapply touches_only_trans; [|exact T]);
        unfold touches_only; cbn; (repeat split; auto);
        intros p Hp; by rewrite lookup_insert_ne.
Qed.

Lemma download_chunks_content total cs : forall downloaded w n w' content,
  files w !! new_exe_path = Some content ->
  GDTPacker.download_chunks env total cs downloaded w = (Ret n, w') ->
  files w' !! new_exe_path = Some (content ++ concat cs).
Proof.
  induction cs as [|chunk cs IH]; intros downloaded w n w' content Hc;
    cbn [GDTPacker.download_chunks].
  - run_py. intros [= <- <-]. by rewrite app_nil_r.
  - destruct chunk as [|b chunk]; [cbn [concat app]; by apply IH|].
    unfold bind at 1. unfold f_write, os_call.
    destruct (io_fault env (clock w)) as [e|]; [discriminate|].
    unfold bind at 1. cbn [concat].
    destruct (negb (total =? 0)); run_py; intros Hrun;
      rewrite (app_assoc content);
      (eapply IH; [|exact Hrun]); cbn; by rewrite lookup_insert_eq, Hc.
Qed.

Lemma download_chunks_no_fault total cs :
  (forall n, io_fault env n = None) ->
  forall downloaded w, exists n,
    fst (GDTPacker.download_chunks env total cs downloaded w) = Ret n.
Proof.
  intros Hok. induction cs as [|chunk cs IH]; intros downloaded w;
    cbn [GDTPacker.download_chunks].
  - eexists. reflexivity.
  - destruct chunk as [|b chunk]; [apply IH|].
    unfold bind at 1. unfold f_write, os_call. rewrite Hok.
    unfold bind at 1. destruct (negb (total =? 0)); run_py; apply IH.
Qed.

(** Every way [download_update] can end. *)
Lemma download_update_cases url w :
  exists w',
    downloads_into new_exe_path w w'
    /\ (GDTPacker.download_update env url w = (Ret PNone, w')
        \/ GDTPacker.download_update env url w = (Ret (PStr new_exe_path), w')
           /\ exists u r,
               url = PStr u /\ http env (clock w) u = inr r
               /\ status_code r = 200 /\ dropped r = None
               /\ files w' !! new_exe_path = Some (concat (chunks r))).
Proof.
  unfold GDTPacker.download_update, requests_get.
  destruct url as [ | b | z | f | u | l | d ];
    try (run_py; eexists; split; [|left; reflexivity];
         unfold downloads_into; cbn; auto 10).
  run_py.
  destruct (http env (clock w) u) as [e|r] eqn:Hh; run_py.
  { eexists; split; [|left; reflexivity]. unfold downloads_into; cbn; auto 10. }
  destruct (status_code r =? 200) eqn:Hs; run_py.
  2:{ eexists; split; [|left; reflexivity]. unfold downloads_into; cbn; auto 10. }
  apply Z.eqb_eq in Hs.
  destruct (content_length r) as [s|]; run_py;
    [destruct (py_int env s) as [e|total]; run_py;
     [eexists; split; [|left; reflexivity]; unfold downloads_into; cbn; auto 10|]|];
    (destruct (io_fault env (S (clock w))) as [e|]; run_py;
     [eexists; split; [|left; reflexivity]; unfold downloads_into; cbn; auto 10|]);
    match goal with |- context [GDTPacker.download_chunks env ?t (chunks r) 0 ?w1] =>
      destruct (GDTPacker.download_chunks env t (chunks r) 0 w1) as [o w2] eqn:Ed;
      destruct (download_chunks_frame t (chunks r) _ _ _ _ Ed) as (T & O);
      pose proof (download_chunks_content t (chunks r) 0 w1) as C
    end;
    (assert (Hin : downloads_into new_exe_path w w2);
     [apply touches_only_downloads_into in T;
      (eapply downloads_into_trans; [|exact T]);
      unfold downloads_into; cbn; (repeat split; auto);
      intros p Hne; by rewrite lookup_insert_ne|]);
    (destruct O as [[n ->] | [e ->]];
     [destruct (dropped r) as [e|] eqn:Hdr; run_py|]);
    try (eexists; split; [|left; reflexivity]; exact Hin).
  all: eexists; (split; [|right; split; [reflexivity|]]);
    [unfold downloads_into in *; cbn; exact Hin|].
  all: exists u, r; repeat (split; [done|]); cbn.
  all: apply (C n w2 []); [|exact Ed]; cbn; by rewrite lookup_insert_eq.
Qed.

End DownloadFacts.

Section DownloadOutcomes.
Variable env : Env.

Local Abbreviation new_exe_path := (GDTPacker.new_exe_path env).

Lemma download_update_fails_early url w :
  fails_before_open env url w ->
  fst (GDTPacker.download_update env url w) = Ret PNone
  /\ files (snd (GDTPacker.download_update env url w)) = files w.
Proof.
  unfold fails_before_open, fetch_fails, GDTPacker.download_update, requests_get.
  destruct url as [ | b | z | f | u | l | d ]; try (intros _; run_py; split; reflexivity).
  run_py. destruct (http env (clock w) u) as [e|r]; run_py; [split; reflexivity|].
  destruct (status_code r =? 200); [discriminate|]. split; reflexivity.
Qed.

(** With a healthy filesystem, a 200 response whose stream runs to its
    end is returned as the path of the file. *)
Lemma download_update_completes u r w :
  (forall n, io_fault env n = None) ->
  http env (clock w) u = inr r ->
  status_code r = 200 ->
  length_header_ok env r ->
  dropped r = None ->
  fst (GDTPacker.download_update env (PStr u) w) = Ret (PStr new_exe_path).
Proof.
  intros Hok Hh Hs Hlen Hd.
  unfold GDTPacker.download_update, requests_get, length_header_ok in *. run_py.
  rewrite Hh, Hs. cbn [Z.eqb Pos.eqb]. run_py.
  destruct (content_length r) as [s|]; run_py;
    [destruct Hlen as [z ->]; run_py|]; rewrite Hok; run_py;
    match goal with |- context [GDTPacker.download_chunks env ?t (chunks r) 0 ?w1] =>
      destruct (download_chunks_no_fault env t (chunks r) Hok 0 w1) as [n Hn];
      destruct (GDTPacker.download_chunks env t (chunks r) 0 w1) as [o w2]
    end; cbn [fst] in Hn; subst o; rewrite Hd; reflexivity.
Qed.

End DownloadOutcomes.

Lemma http_success_200 status : http_success status = false -> (status =? 200) = false.
Proof. unfold http_success. intros H. apply Z.eqb_neq. intros ->. discriminate. Qed.

(** C3: [download_update] returns [None] or the temp path, never
    raises; it returns [None] whenever the status is not a success, the
    request raises, or the stream breaks (whatever was written before);
    it returns the path only if the response was 200, the stream ended
    without exception and the file holds all of its chunks; and it does
    return the path when nothing fails. *)
Theorem download_update_none_unless_complete (env : Env) (url : pyval) (w : world) :
  let o := fst (GDTPacker.download_update env url w) in
  let w' := snd (GDTPacker.download_update env url w) in
  (o = Ret PNone \/ o = Ret (PStr (GDTPacker.new_exe_path env)))
  /\ (o = Ret (PStr (GDTPacker.new_exe_path env)) ->
      exists u r,
        url = PStr u /\ http env (clock w) u = inr r
        /\ status_code r = 200 /\ dropped r = None
        /\ files w' !! GDTPacker.new_exe_path env = Some (concat (chunks r)))
  /\ (forall u r, url = PStr u -> http env (clock w) u = inr r ->
        http_success (status_code r) = false -> o = Ret PNone)
  /\ (forall u e, url = PStr u -> http env (clock w) u = inl e -> o = Ret PNone)
  /\ (forall u r e, url = PStr u -> http env (clock w) u = inr r ->
        dropped r = Some e -> o = Ret PNone)
  /\ (forall u r, url = PStr u -> http env (clock w) u = inr r ->
        status_code r = 200 -> dropped r = None -> length_header_ok env r ->
        (forall n, io_fault env n = None) ->
        o = Ret (PStr (GDTPacker.new_exe_path env))).
Proof.
  intros o w'. subst o w'.
  destruct (download_update_cases env url w) as (w' & _ & Hcase).
  assert (Hnone_or : fst (GDTPacker.download_update env url w) = Ret PNone
                     \/ (fst (GDTPacker.download_update env url w)
                         = Ret (PStr (GDTPacker.new_exe_path env))
                         /\ exists u r,
                             url = PStr u /\ http env (clock w) u = inr r
                             /\ status_code r = 200 /\ dropped r = None
                             /\ files (snd (GDTPacker.download_update env url w))
                                  !! GDTPacker.new_exe_path env
                                = Some (concat (chunks r)))).
  { destruct Hcase as [E | (E & Hex)]; rewrite E; cbn [fst snd]; [by left|by right]. }
  clear Hcase w'.
  split; [destruct Hnone_or as [H | [H _]]; auto|].
  split.
  { intros Hp. destruct Hnone_or as [H | [_ H]]; [congruence|exact H]. }
  split.
  { intros u r -> Hh Hs.
    apply (download_update_fails_early env (PStr u) w).
    unfold fails_before_open, fetch_fails. rewrite Hh.
    by rewrite (http_success_200 _ Hs). }
  split.
  { intros u e -> Hh.
    apply (download_update_fails_early env (PStr u) w).
    unfold fails_before_open, fetch_fails. by rewrite Hh. }
  split.
  { intros u r e -> Hh Hd.
    destruct Hnone_or as [H | [_ (u' & r' & [= <-] & Hh' & _ & Hd' & _)]]; [exact H|].
    congruence. }
  intros u r -> Hh Hs Hd Hlen Hok.
  by apply (download_update_completes env u r w).
Qed.

(** The mid-stream case of C3 on a concrete run: two chunks arrive, the
    connection breaks, [None] is returned and the chunks stay in the
    temp file. *)
Example download_update_dropped :
  fst (GDTPacker.download_update Scenario.env_dropping (PStr Scenario.app_url)
         Scenario.installed) = Ret PNone
  /\ files (snd (GDTPacker.download_update Scenario.env_dropping (PStr Scenario.app_url)
                   Scenario.installed))
     !! GDTPacker.new_exe_path Scenario.env_dropping
     = Some [x4d; x5a; x90].
Proof. split; vm_compute; reflexivity. Qed.

(* ===================================================================== *)
(** * The main application: handing over to the updater                  *)
(* ===================================================================== *)

Section LaunchFacts.
Variable env : Env.

(** The four [print] calls that precede [Popen] in [run_update]. *)
Lemma run_update_spawned new_exe p up w :
  new_exe = PStr p ->
  io_fault env (clock w) = None ->
  exists out,
    GDTPacker.run_update env new_exe up w
    = (SysExit 0,
       set_stdout (out ++ [lit "Exiting current version." ++ nl])
         (tick (set_procs (procs w ++ [[up; sys_executable env; p]]) w))).
Proof.
  intros -> Hok. unfold GDTPacker.run_update, Popen. cbn [str_args fmap option_fmap option_map].
  run_py. rewrite Hok. run_py. eexists. reflexivity.
Qed.

Lemma run_update_spawn_raises new_exe up w e :
  fst (Popen env [PStr up; PStr (sys_executable env); new_exe] w) = Raise e ->
  exists out w',
    GDTPacker.run_update env new_exe up w
    = (Ret tt, set_stdout (out ++ [(lit "Update launch failed: " ++ exn_msg e) ++ nl]) w')
    /\ procs w' = procs w /\ files w' = files w /\ dirs w' = dirs w.
Proof.
  unfold GDTPacker.run_update, Popen.
  destruct (str_args [PStr up; PStr (sys_executable env); new_exe]) as [argv|]; run_py.
  - destruct (io_fault env (clock w)) as [e'|]; run_py; [|discriminate].
    intros [= ->]. eexists _, _. split; [reflexivity|]. cbn. auto.
  - intros [= <-]. eexists _, _. split; [reflexivity|]. cbn. auto.
Qed.

Lemma run_update_outcome new_exe up w :
  fst (GDTPacker.run_update env new_exe up w) = SysExit 0
  \/ fst (GDTPacker.run_update env new_exe up w) = Ret tt.
Proof.
  unfold GDTPacker.run_update, Popen.
  destruct (str_args [PStr up; PStr (sys_executable env); new_exe]) as [argv|]; run_py.
  - destruct (io_fault env (clock w)) as [e'|]; run_py; auto.
  - auto.
Qed.

End LaunchFacts.

(** C4: given the payload path, when the spawn goes through
    [run_update] ends in [sys.exit(0)]: the updater was started with the
    current executable and the payload as arguments, and the [except
    Exception] clause does not stop the exit; when the spawn raises, the
    failure is printed and [run_update] returns normally, nothing having
    been spawned or written. There is no third way. *)
Theorem run_update_exits_or_continues (env : Env) (new_exe : pyval) (up : pystr)
        (w : world) :
  let run := GDTPacker.run_update env new_exe up w in
  (forall p, new_exe = PStr p -> io_fault env (clock w) = None ->
     fst run = SysExit 0
     /\ procs (snd run) = procs w ++ [[up; sys_executable env; p]]
     /\ last (stdout (snd run)) = Some (lit "Exiting current version." ++ nl))
  /\ (forall e, fst (Popen env [PStr up; PStr (sys_executable env); new_exe] w) = Raise e ->
        fst run = Ret tt
        /\ procs (snd run) = procs w /\ files (snd run) = files w
        /\ last (stdout (snd run)) = Some ((lit "Update launch failed: " ++ exn_msg e) ++ nl))
  /\ (fst run = SysExit 0 \/ fst run = Ret tt).
Proof.
  intros run. subst run. split; [|split].
  - intros p Hp Hok.
    destruct (run_update_spawned env new_exe p up w Hp Hok) as (out & ->).
    cbn. split; [reflexivity|]. split; [reflexivity|]. apply last_snoc.
  - intros e He.
    destruct (run_update_spawn_raises env new_exe up w e He)
      as (out & w' & -> & Hp & Hf & _).
    cbn. split; [reflexivity|]. split; [exact Hp|]. split; [exact Hf|]. apply last_snoc.
  - apply run_update_outcome.
Qed.

(** C4 on the end-to-end scenario, and with an updater that cannot be
    started. *)
Example run_update_scenario :
  (let run := GDTPacker.run_update Scenario.env_ok (PStr (lit "C:\Temp\new_version.exe"))
                (lit "C:\upd\updater.exe") Scenario.installed in
   fst run = SysExit 0
   /\ procs (snd run) = [[lit "C:\upd\updater.exe"; lit "C:\Apps\GDTPacker.exe";
                          lit "C:\Temp\new_version.exe"]])
  /\ (let run := GDTPacker.run_update
                   (Scenario.mk_env "1.3.0" [] Scenario.net_down Scenario.always_fault)
                   (PStr (lit "C:\Temp\new_version.exe"))
                   (lit "C:\upd\updater.exe") Scenario.installed in
      fst run = Ret tt /\ procs (snd run) = []).
Proof. split; split; vm_compute; reflexivity. Qed.

(* ===================================================================== *)
(** * The main application: the update flow                              *)
(* ===================================================================== *)

Section FlowFacts.
Variable env : Env.


(** Without metadata, [auto_update] asks nothing and starts nothing. *)
Lemma auto_update_no_metadata w :
  (forall n, fetch_fails (http env n GDTPacker.updates_url) = true) ->
  asked (snd (GDTPacker.auto_update env w)) = asked w
  /\ procs (snd (GDTPacker.auto_update env w)) = procs w
  /\ (fst (GDTPacker.auto_update env w) = Ret tt
      \/ exists e, fst (GDTPacker.auto_update env w) = Raise e).
Proof.
  intros Hdown. unfold GDTPacker.auto_update.
  destruct (get_version_data_fetch_fails env w (Hdown _)) as (out & E1).
  rewrite (bind_Ret _ _ _ _ _ E1).
  set (w1 := set_stdout out (tick (set_reqs (reqs w ++ [GDTPacker.updates_url]) w))).
  destruct (path_exists (GDTPacker.updater_dir env) w1) eqn:Hdir;
    [|destruct (io_fault env (clock w1)) as [e|] eqn:Hf].
  2:{ rewrite (bind_Raise _ _ _ _ _ (get_updater_path_dir_fails env _ w1 e Hdir Hf)).
      cbn. eauto. }
  all: assert (Hready : dir_ready env w1) by (unfold dir_ready; auto).
  all: pose proof (get_updater_path_steps env [] w1 Hready) as E2.
  all: cbn [dict_get] in E2.
  all: rewrite (resolve_updater_no_url env PNone _ eq_refl) in E2.
  all: rewrite (bind_Ret _ _ _ _ _ E2).
  all: match goal with |- context [bind (GDTPacker.check_for_updates env) _ ?w2] =>
         destruct (check_for_updates_fetch_fails env w2 (Hdown _)) as (out3 & E3) end.
  all: rewrite (bind_Ret _ _ _ _ _ E3).
  all: destruct (after_dir_frame env w1) as (_ & _ & Hp & Ha & _).
  all: cbn; rewrite ?Hp, ?Ha; auto.
Qed.

End FlowFacts.

(** C6: a metadata fetch that ends in a status other than 200 or in an
    exception makes [get_version_data] return the empty dict (it never
    raises) and [check_for_updates] return [(None, None)]; so does
    metadata whose version is absent or empty; and when the metadata
    cannot be fetched at all, [auto_update] shows no dialog, starts no
    updater and does not exit. *)
Theorem failed_fetch_is_no_update (env : Env) (w : world) :
  (exists v, fst (GDTPacker.get_version_data env w) = Ret v)
  /\ (fetch_fails (http env (clock w) GDTPacker.updates_url) = true ->
      fst (GDTPacker.get_version_data env w) = Ret (PDict [])
      /\ fst (GDTPacker.check_for_updates env w) = Ret (PNone, PNone)
      /\ update_offered (fst (GDTPacker.check_for_updates env w)) = false)
  /\ (forall resp d,
        http env (clock w) GDTPacker.updates_url = inr resp ->
        status_code resp = 200 ->
        json_loads env (text resp) = inr (PDict d) ->
        dict_get d (lit "version") = PNone \/ dict_get d (lit "version") = PStr [] ->
        fst (GDTPacker.check_for_updates env w) = Ret (PNone, PNone)
        /\ update_offered (fst (GDTPacker.check_for_updates env w)) = false)
  /\ ((forall n, fetch_fails (http env n GDTPacker.updates_url) = true) ->
      asked (snd (GDTPacker.auto_update env w)) = asked w
      /\ procs (snd (GDTPacker.auto_update env w)) = procs w
      /\ forall c, fst (GDTPacker.auto_update env w) <> SysExit c).
Proof.
  split; [|split; [|split]].
  - destruct (get_version_data_returns env w) as (v & out & ->). eauto.
  - intros Hfail.
    destruct (get_version_data_fetch_fails env w Hfail) as (out & ->).
    destruct (check_for_updates_fetch_fails env w Hfail) as (out' & ->).
    cbn. auto.
  - intros resp d Hh Hs Hj Hv.
    rewrite (check_for_updates_fetched env w resp d Hh Hs Hj).
    destruct Hv as [-> | ->]; cbn; auto.
  - intros Hdown.
    destruct (auto_update_no_metadata env w Hdown) as (Ha & Hp & Ho).
    split; [exact Ha|]. split; [exact Hp|].
    intros c Hc. destruct Ho as [Ho | [e Ho]]; congruence.
Qed.

(** C6 on a machine without network. *)
Example auto_update_offline :
  GDTPacker.get_version_data (Scenario.mk_env "1.3.0" [] Scenario.net_down Scenario.no_fault)
    Scenario.installed
  = (Ret (PDict []),
     snd (GDTPacker.get_version_data
            (Scenario.mk_env "1.3.0" [] Scenario.net_down Scenario.no_fault)
            Scenario.installed))
  /\ fst (GDTPacker.auto_update (Scenario.mk_env "1.3.0" [] Scenario.net_down Scenario.no_fault)
            Scenario.installed) = Ret tt
  /\ asked (snd (GDTPacker.auto_update
                   (Scenario.mk_env "1.3.0" [] Scenario.net_down Scenario.no_fault)
                   Scenario.installed)) = [].
Proof. repeat split; vm_compute; reflexivity. Qed.




(** C1 on two concrete documents: a version that differs from the local
    one only by surrounding blanks is not offered; the end-to-end
    scenario's newer version is. *)
Example check_for_updates_scenarios :
  fst (GDTPacker.check_for_updates Scenario.padded_env Scenario.fresh) = Ret (PNone, PNone)
  /\ fst (GDTPacker.check_for_updates Scenario.env_ok Scenario.fresh)
     = Ret (PStr (lit "1.3.0"), PStr Scenario.app_url).
Proof. split; vm_compute; reflexivity. Qed.

(** The end-to-end scenario: the update is offered and accepted, the
    payload and the updater are downloaded, the updater is started with
    the current executable and the payload, and the main process exits
    with status 0; the updater process then writes the batch file,
    starts it and exits with status 0. *)
Example end_to_end :
  (let run := GDTPacker.auto_update Scenario.env_ok Scenario.installed in
   fst run = SysExit 0
   /\ procs (snd run) = [[GDTPacker.updater_path Scenario.env_ok;
                          lit "C:\Apps\GDTPacker.exe";
                          lit "C:\Temp\new_version.exe"]]
   /\ files (snd run) !! lit "C:\Temp\new_version.exe" = Some [x4d; x5a]
   /\ files (snd run) !! lit "C:\Apps\GDTPacker.exe" = Some [x4d; x5a; x01])
  /\ (let run := Updater.main (Scenario.mk_env "1.3.0" Scenario.updater_argv
                                Scenario.net_down Scenario.no_fault)
                   Scenario.installed in
      fst run = SysExit 0
      /\ procs (snd run) = [[lit "cmd"; lit "/c"; lit "C:\Apps\update.bat"]]
      /\ slept (snd run) = 5).
Proof. repeat split; vm_compute; reflexivity. Qed.
